(** * Pymoe.Mal: the MyAnimeList client, embedded in Rocq

    The module [Pymoe/Mal/__init__.py] defines one class, [MAL], whose
    methods send HTTP requests through [requests], parse the XML answers
    with [xml.etree.ElementTree] and build [Anime], [Manga] and [User]
    objects.  The embedding below follows the methods one by one:

    - Python values that the methods receive or return are an inductive
      type [pyval];
    - exceptions are an inductive type [exn]; a computation returns
      [Ok v] or [Raise e];
    - a [string] is a text whose characters lie below 256, one [ascii] per
      character; a Python text in general is a [pystr], a list of code
      points;
    - the instance ([self]) and the list of HTTP requests sent so far are
      threaded through every method as an explicit state [world];
    - the libraries ([requests], [ElementTree], [html]) are modelled by
      their interface: the remote server and the XML tokenizer are
      variables of the section, the classes and keyword checks that decide
      which exception a call raises are written out. *)

From Stdlib Require Import String Ascii List ZArith.
Import ListNotations.
Open Scope string_scope.
Open Scope Z_scope.

(** ** Exceptions and results *)

(** Exceptions raised by the libraries carry no message in the model; the
    ones raised by this module carry the message the source builds. *)
Inductive exn : Type :=
| AttributeError
| ParseError
| TypeError
| UnicodeEncodeError
| SyntaxError (msg : string)
| ServerError (body : string)
| UserLoginFailed (msg : string).

Inductive result (A : Type) : Type :=
| Ok (v : A)
| Raise (e : exn).

Arguments Ok {A} v.
Arguments Raise {A} e.

Definition rbind {A B} (r : result A) (k : A -> result B) : result B :=
  match r with
  | Ok v => k v
  | Raise e => Raise e
  end.

Declare Scope res_scope.
Delimit Scope res_scope with res.
Notation "x <-- c ;; k" := (rbind c (fun x => k))
  (at level 61, c at next level, right associativity) : res_scope.

(** The body of a [for] loop that appends one object per item. *)
Fixpoint rmap {A B} (f : A -> result B) (l : list A) : result (list B) :=
  match l with
  | [] => Ok []
  | x :: l' =>
      match f x with
      | Raise e => Raise e
      | Ok y =>
          match rmap f l' with
          | Raise e => Raise e
          | Ok ys => Ok (y :: ys)
          end
      end
  end.

(** ** Python strings *)

(** [s.split(c)] for a one-character separator: never the empty list. *)
Fixpoint split (c : ascii) (s : string) : list string :=
  match s with
  | EmptyString => [EmptyString]
  | String a s' =>
      if Ascii.eqb a c then EmptyString :: split c s'
      else
        match split c s' with
        | [] => [String a EmptyString]
        | h :: t => String a h :: t
        end
  end.

(** [s.replace(old, new)] for a non-empty [old]: occurrences are replaced
    from the left and do not overlap.  [skip] counts the characters of an
    occurrence that are still to be dropped. *)
Fixpoint replace_from (old new : string) (skip : nat) (s : string) : string :=
  match s with
  | EmptyString => EmptyString
  | String a s' =>
      match skip with
      | S k => replace_from old new k s'
      | O =>
          if String.prefix old s
          then new ++ replace_from old new (Nat.pred (String.length old)) s'
          else String a (replace_from old new O s')
      end
  end.

Definition replace (old new s : string) : string := replace_from old new O s.

(** [x or d] on lists: a list is falsy exactly when it is empty. *)
Definition list_or {A} (x d : list A) : list A :=
  match x with
  | [] => d
  | _ :: _ => x
  end.

(** A Python text: its code points. *)
Definition pystr : Type := list N.

(** [t.encode("latin1")]: one byte per character, and no result as soon as
    a character lies above 255 (Python raises [UnicodeEncodeError]). *)
Fixpoint latin1 (t : pystr) : option string :=
  match t with
  | [] => Some EmptyString
  | c :: t' =>
      if (c <? 256)%N then
        match latin1 t' with
        | Some s => Some (String (ascii_of_N c) s)
        | None => None
        end
      else None
  end.

(** ["{}".format(v)] where [v] is a text or [None]. *)
Definition format_text (v : option string) : string :=
  match v with
  | Some s => s
  | None => "None"
  end.

(** ** xml.etree.ElementTree *)

(** An element: its tag, its text ([None] when the element has no text
    content) and its children.  Attributes and tails are not read by the
    module. *)
Module ET.

#[local] Unset Elimination Schemes.
Inductive Element : Type :=
| Elem (tag : string) (text : option string) (children : list Element).
#[local] Set Elimination Schemes.

Definition tag (e : Element) : string := let 'Elem t _ _ := e in t.
Definition text (e : Element) : option string := let 'Elem _ x _ := e in x.
Definition children (e : Element) : list Element := let 'Elem _ _ c := e in c.

(** [e.find(t)]: the first child with tag [t], or [None]. *)
Definition find (t : string) (e : Element) : option Element :=
  List.find (fun c => String.eqb (tag c) t) (children e).

(** [e.findall(t)]: the children with tag [t], in document order. *)
Definition findall (t : string) (e : Element) : list Element :=
  List.filter (fun c => String.eqb (tag c) t) (children e).

(** The library has two classes: [ElementTree], a document, which has
    [getroot], and [Element], which has not. *)
Inductive etobj : Type :=
| AnElement (e : Element)
| AnElementTree (root : Element).

Definition getroot (o : etobj) : result Element :=
  match o with
  | AnElementTree r => Ok r
  | AnElement _ => Raise AttributeError
  end.

End ET.

(** [e.find(t)] used as an object: the next attribute access fails when
    [find] gave [None]. *)
Definition find_in (t : string) (e : ET.Element) : result ET.Element :=
  match ET.find t e with
  | Some c => Ok c
  | None => Raise AttributeError
  end.

(** [e.find(t).text]: [AttributeError] when there is no such child. *)
Definition find_text (t : string) (e : ET.Element) : result (option string) :=
  match ET.find t e with
  | Some c => Ok (ET.text c)
  | None => Raise AttributeError
  end.

(** A method call on a text that may be [None]. *)
Definition on_str {A} (v : option string) (f : string -> A) : result A :=
  match v with
  | Some s => Ok (f s)
  | None => Raise AttributeError
  end.

(** ** Pymoe.Mal.Objects *)

(** Modelled from the spec: the classes [Anime], [Manga] and [User] of
    [Pymoe/Mal/Objects.py] are value records; the fields are the keyword
    arguments that the module passes to their constructors.  A text field
    holds what [Element.text] gives, a string or [None]; [synonyms] holds a
    list or [None]. *)
Record Anime : Type := mkAnime {
  a_id : option string;
  a_title : option string;
  a_synonyms : option (list (option string));
  a_episodes : option string;
  a_average : option string;
  a_anime_start : option string;
  a_anime_end : option string;
  a_synopsis : string;
  a_image : option string;
  a_status_anime : option string;
  a_type : option string
}.

Record Manga : Type := mkManga {
  m_id : option string;
  m_title : option string;
  m_synonyms : option (list (option string));
  m_chapters : option string;
  m_volumes : option string;
  m_average : option string;
  m_manga_start : option string;
  m_manga_end : option string;
  m_synopsis : string;
  m_image : option string;
  m_status_manga : option string;
  m_type : option string
}.

(** The values a caller can hand to a method. *)
Inductive pyval : Type :=
| PyNone
| PyBool (b : bool)
| PyInt (z : Z)
| PyStr (s : string)
| PyAnime (a : Anime)
| PyManga (m : Manga).

(** [str(type(v))]. *)
Definition type_repr (v : pyval) : string :=
  match v with
  | PyNone => "<class 'NoneType'>"
  | PyBool _ => "<class 'bool'>"
  | PyInt _ => "<class 'int'>"
  | PyStr _ => "<class 'str'>"
  | PyAnime _ => "<class 'Pymoe.Mal.Objects.Anime'>"
  | PyManga _ => "<class 'Pymoe.Mal.Objects.Manga'>"
  end.

Definition is_anime (v : pyval) : bool :=
  match v with PyAnime _ => true | _ => false end.

Definition is_manga (v : pyval) : bool :=
  match v with PyManga _ => true | _ => false end.

Record User : Type := mkUser {
  u_uid : option string;
  u_name : option string;
  anime_list : list pyval;
  anime_complete : option string;
  anime_onhold : option string;
  anime_dropped : option string;
  anime_planned : option string;
  anime_watching : option string;
  anime_days : option string;
  manga_list : list pyval;
  manga_completed : option string;
  manga_onhold : option string;
  manga_dropped : option string;
  manga_planned : option string;
  manga_watching : option string;
  manga_days : option string
}.

(** ** requests *)

Inductive http_method : Type := GET | POST.

Record request : Type := mkRequest {
  meth : http_method;
  url : string;
  params : list (string * string);
  auth : option (string * string);
  headers : list (string * string)
}.

Record response : Type := mkResponse {
  status_code : Z;
  text : string
}.

(** The value of a keyword argument of [requests.get] or [requests.post].
    An [HTTPBasicAuth] holds the name and the password in latin-1, the
    form in which [requests] puts them in the request; the encoding
    itself, which can fail, is [encode_auth] below. *)
Inductive kwval : Type :=
| Dict (d : list (string * string))
| HTTPBasicAuth (username password : string).

(** The keyword parameters of [Session.request], to which [requests.get]
    and [requests.post] forward their keyword arguments.  Python compares
    keyword names exactly, case included. *)
Definition request_keywords : list string :=
  ["params"; "data"; "headers"; "cookies"; "files"; "auth"; "timeout";
   "allow_redirects"; "proxies"; "hooks"; "stream"; "verify"; "cert"; "json"].

Definition known_keyword (k : string) : bool :=
  existsb (String.eqb k) request_keywords.

Fixpoint kwarg (k : string) (kwargs : list (string * kwval)) : option kwval :=
  match kwargs with
  | [] => None
  | (k', v) :: rest => if String.eqb k' k then Some v else kwarg k rest
  end.

Definition kw_dict (k : string) (kwargs : list (string * kwval))
  : list (string * string) :=
  match kwarg k kwargs with
  | Some (Dict d) => d
  | _ => []
  end.

Definition kw_auth (kwargs : list (string * kwval)) : option (string * string) :=
  match kwarg "auth" kwargs with
  | Some (HTTPBasicAuth u p) => Some (u, p)
  | _ => None
  end.

Definition build_request (m : http_method) (u : string)
    (kwargs : list (string * kwval)) : request :=
  {| meth := m; url := u;
     params := kw_dict "params" kwargs;
     auth := kw_auth kwargs;
     headers := kw_dict "headers" kwargs |}.

(** ** The instance and the state of a run *)

Record MAL : Type := mkMAL {
  apiurl : string;
  apiusers : string;
  header : list (string * string);
  _username : string;
  _password : string
}.

(** The state a method runs in: the instance and the requests that have
    reached the network, oldest first. *)
Record world : Type := mkWorld {
  self : MAL;
  sent : list request
}.

Definition M (A : Type) : Type := world -> result A * world.

Definition ret {A} (v : A) : M A := fun w => (Ok v, w).

Definition raise {A} (e : exn) : M A := fun w => (Raise e, w).

Definition bind {A B} (c : M A) (k : A -> M B) : M B :=
  fun w =>
    match c w with
    | (Ok v, w') => k v w'
    | (Raise e, w') => (Raise e, w')
    end.

Definition lift {A} (r : result A) : M A := fun w => (r, w).

Definition get_self : M MAL := fun w => (Ok (self w), w).

Declare Scope mal_scope.
Delimit Scope mal_scope with mal.
Notation "x <- c ;; k" := (bind c (fun x => k))
  (at level 61, c at next level, right associativity) : mal_scope.

(** The dictionary that [parse_anime_data] and [parse_manga_data] return
    has a fixed set of keys. *)
Record listing : Type := mkListing {
  data : list pyval;
  completed : option string;
  onhold : option string;
  dropped : option string;
  planned : option string;
  watching : option string;
  days : option string
}.

(** [l.append(x)] changes [l] in place and returns [None]: the first
    component is the list afterwards, the second the value of the call. *)
Definition list_append {A} (l : list A) (x : A) : list A * option (list A) :=
  ((l ++ [x])%list, None).

(** ** Sample data

    A search answer with one entry, a user list with its [myinfo] block,
    and a parser that knows these two documents. *)

Definition leaf (t x : string) : ET.Element := ET.Elem t (Some x) [].

Definition sample_entry : ET.Element :=
  ET.Elem "entry" None
    [leaf "id" "1"; leaf "title" "Cowboy Bebop"; leaf "english" "Cowboy Bebop";
     leaf "synonyms" "a;b"; leaf "episodes" "26"; leaf "chapters" "11";
     leaf "volumes" "3"; leaf "score" "8.8"; leaf "type" "TV";
     leaf "status" "Finished"; leaf "start_date" "1998-04-03";
     leaf "end_date" "1999-04-24"; leaf "synopsis" "x<br />y";
     leaf "image" "i.jpg"].

Definition sample_search_doc : ET.Element := ET.Elem "anime" None [sample_entry].

Definition sample_search_xml : string :=
  "<anime><entry><id>1</id><title>Cowboy Bebop</title>"
  ++ "<english>Cowboy Bebop</english><synonyms>a;b</synonyms>"
  ++ "<episodes>26</episodes><chapters>11</chapters><volumes>3</volumes>"
  ++ "<score>8.8</score><type>TV</type><status>Finished</status>"
  ++ "<start_date>1998-04-03</start_date><end_date>1999-04-24</end_date>"
  ++ "<synopsis>x&lt;br /&gt;y</synopsis><image>i.jpg</image></entry></anime>".

Definition sample_user_doc : ET.Element :=
  ET.Elem "myanimelist" None
    [ET.Elem "myinfo" None
       [leaf "user_id" "7"; leaf "user_name" "bob"; leaf "user_watching" "1";
        leaf "user_completed" "2"; leaf "user_onhold" "3";
        leaf "user_dropped" "4"; leaf "user_plantowatch" "5";
        leaf "user_days_spent_watching" "6.5"]].

Definition sample_user_xml : string :=
  "<myanimelist><myinfo><user_id>7</user_id><user_name>bob</user_name>"
  ++ "<user_watching>1</user_watching><user_completed>2</user_completed>"
  ++ "<user_onhold>3</user_onhold><user_dropped>4</user_dropped>"
  ++ "<user_plantowatch>5</user_plantowatch>"
  ++ "<user_days_spent_watching>6.5</user_days_spent_watching>"
  ++ "</myinfo></myanimelist>".

Definition sample_parse (s : string) : option ET.Element :=
  if String.eqb s sample_search_xml then Some sample_search_doc
  else if String.eqb s sample_user_xml then Some sample_user_doc
  else None.

(** An entry whose [synonyms] element is there and empty. *)
Definition empty_synonyms_entry : ET.Element :=
  ET.Elem "entry" None
    [leaf "id" "1"; leaf "title" "T"; leaf "english" "T";
     ET.Elem "synonyms" None []].

(** An entry without its [image] child. *)
Definition no_image_entry : ET.Element :=
  ET.Elem "entry" None
    [leaf "id" "1"; leaf "title" "T"; leaf "english" "T";
     leaf "synonyms" "a"; leaf "episodes" "1"; leaf "chapters" "1";
     leaf "volumes" "1"; leaf "score" "5"; leaf "type" "TV";
     leaf "status" "Airing"; leaf "start_date" "2000-01-01";
     leaf "end_date" "2000-02-02"; leaf "synopsis" "plain"].

(** A complete entry whose synopsis holds no tag and whose title has no
    text. *)
Definition plain_entry : ET.Element :=
  ET.Elem "entry" None
    [leaf "id" "3"; ET.Elem "title" None []; leaf "english" "T";
     leaf "synonyms" "a"; leaf "episodes" "1"; leaf "chapters" "1";
     leaf "volumes" "1"; leaf "score" "5"; leaf "type" "TV";
     leaf "status" "Airing"; leaf "start_date" "2000-01-01";
     leaf "end_date" "2000-02-02"; leaf "synopsis" "plain";
     leaf "image" "k.jpg"].

(** A search answer whose only entry has an empty [synonyms], and a
    parser that knows it. *)
Definition empty_synonyms_doc : ET.Element :=
  ET.Elem "anime" None [empty_synonyms_entry].

Definition empty_synonyms_xml : string :=
  "<anime><entry><id>1</id><title>T</title><english>T</english>"
  ++ "<synonyms/></entry></anime>".

Definition empty_synonyms_parse (s : string) : option ET.Element :=
  if String.eqb s empty_synonyms_xml then Some empty_synonyms_doc else None.

Definition sample_anime : Anime :=
  mkAnime (Some "1") (Some "Cowboy Bebop") None (Some "26") (Some "8.8")
    (Some "1998-04-03") (Some "1999-04-24") "xy" (Some "i.jpg")
    (Some "Finished") (Some "TV").

Definition sample_manga : Manga :=
  mkManga (Some "2") (Some "Berserk") None (Some "11") (Some "3") (Some "9.3")
    (Some "1989-08-25") None "z" (Some "j.jpg") (Some "Publishing")
    (Some "Manga").

Definition sample_self : MAL :=
  {| apiurl := "https://myanimelist.net/api/";
     apiusers := "https://myanimelist.net/malappinfo.php";
     header := [("User-Agent", "Pymoe (git.vertinext.com/ccubed/Pymoe)")];
     _username := "bob";
     _password := "secret" |}.

Definition sample_world : world := {| self := sample_self; sent := [] |}.

(** A server that gives the same answer to every request. *)
Definition constant_server (status : Z) (body : string)
  : list request -> request -> response :=
  fun _ _ => {| status_code := status; text := body |}.

Definition sample_unescape (s : string) : string := s.

Definition sample_anime_to_xml (a : Anime) : string :=
  "<entry><status>" ++ format_text (a_status_anime a) ++ "</status></entry>".

Definition sample_manga_to_xml (m : Manga) : string :=
  "<entry><status>" ++ format_text (m_status_manga m) ++ "</status></entry>".

(** ** The class MAL *)

Section Client.

(** The remote service: its answer to a request, given the requests it
    has received before. *)
Variable server : list request -> request -> response.

(** The XML parser behind [ET.fromstring]: [None] when the text is not
    well-formed. *)
Variable xml_parse : string -> option ET.Element.

(** [html.unescape]. *)
Variable unescape : string -> string.

(** The method [to_xml] of [Anime] and of [Manga], defined in
    [Pymoe/Mal/Objects.py]. *)
Variable anime_to_xml : Anime -> string.
Variable manga_to_xml : Manga -> string.

(** [ET.fromstring(s)] returns an [Element], or raises [ParseError]. *)
Definition fromstring (s : string) : result ET.etobj :=
  match xml_parse s with
  | Some e => Ok (ET.AnElement e)
  | None => Raise ParseError
  end.

(** [requests.request(method, url, **kwargs)]: an unknown keyword raises
    [TypeError] before anything is sent; otherwise the request goes out and
    the server's response comes back.  Failures of the connection itself
    are outside the model: the server always answers. *)
Definition requests_request (m : http_method) (u : string)
    (kwargs : list (string * kwval)) : M response :=
  fun w =>
    if forallb (fun kv => known_keyword (fst kv)) kwargs then
      let rq := build_request m u kwargs in
      (Ok (server (sent w) rq), {| self := self w; sent := (sent w ++ [rq])%list |})
    else (Raise TypeError, w).

Definition requests_get := requests_request GET.
Definition requests_post := requests_request POST.

Local Open Scope mal_scope.
Local Open Scope res_scope.

Definition _verify_credentials : M unit :=
  s <- get_self ;;
  r <- requests_get (apiurl s ++ "account/verify_credentials.xml")
         [("auth", HTTPBasicAuth (_username s) (_password s));
          ("headers", Dict (header s))] ;;
  if negb (status_code r =? 200)
  then raise (UserLoginFailed "Username or Password incorrect.")
  else ret tt.

(** [__init__] for a name and a password that latin-1 can hold: the
    attributes are set, then the credentials are verified; the caller
    gets the instance only if [__init__] returns.  The two named tuples
    [anime] and [manga] hold references to the methods below and are not
    part of the record. *)
Definition __init__ (username password : string) (log : list request)
  : result MAL * list request :=
  let s := {| apiurl := "https://myanimelist.net/api/";
              apiusers := "https://myanimelist.net/malappinfo.php";
              header := [("User-Agent", "Pymoe (git.vertinext.com/ccubed/Pymoe)")];
              _username := username;
              _password := password |} in
  match _verify_credentials {| self := s; sent := log |} with
  | (Ok _, w) => (Ok (self w), sent w)
  | (Raise e, w) => (Raise e, sent w)
  end.

(** What [requests] does with [auth=HTTPBasicAuth(username, password)]
    while it prepares a request: the name, then the password, is encoded
    in latin-1; a character above 255 raises [UnicodeEncodeError], and the
    request is not sent. *)
Definition encode_auth (username password : pystr) : result (string * string) :=
  match latin1 username with
  | None => Raise UnicodeEncodeError
  | Some u =>
      match latin1 password with
      | None => Raise UnicodeEncodeError
      | Some p => Ok (u, p)
      end
  end.

(** [MAL(username, password)] for any two texts.  [__init__] stores them
    and calls [_verify_credentials], whose [requests.get] encodes them
    before it sends anything: a pair that does not encode ends the
    construction there, with no request and no instance; for a pair that
    does, the construction is [__init__] above.  An instance that a caller
    holds has therefore credentials that encode, and the record [MAL]
    keeps them encoded. *)
Definition MAL_new (username password : pystr) (log : list request)
  : result MAL * list request :=
  match encode_auth username password with
  | Raise e => (Raise e, log)
  | Ok (u, p) => __init__ u p log
  end.

(** The body of the loops over anime items, in [_search] and in
    [parse_anime_data]. *)
Definition anime_item (item : ET.Element) : result Anime :=
  syn_text <-- find_text "synonyms" item ;;
  parts <-- on_str syn_text (split ";") ;;
  let syn := list_or parts [] in
  id <-- find_text "id" item ;;
  title <-- find_text "title" item ;;
  english <-- find_text "english" item ;;
  let synonyms := snd (list_append (map Some syn) english) in
  episodes <-- find_text "episodes" item ;;
  average <-- find_text "score" item ;;
  anime_start <-- find_text "start_date" item ;;
  anime_end <-- find_text "end_date" item ;;
  syn_raw <-- find_text "synopsis" item ;;
  stripped <-- on_str syn_raw (replace "<br />" "") ;;
  let synopsis := unescape stripped in
  image <-- find_text "image" item ;;
  status <-- find_text "status" item ;;
  type <-- find_text "type" item ;;
  Ok (mkAnime id title synonyms episodes average anime_start anime_end
        synopsis image status type).

(** The body of the loops over manga items, in [_search] and in
    [parse_manga_data]. *)
Definition manga_item (item : ET.Element) : result Manga :=
  syn_text <-- find_text "synonyms" item ;;
  parts <-- on_str syn_text (split ";") ;;
  let syn := list_or parts [] in
  id <-- find_text "id" item ;;
  title <-- find_text "title" item ;;
  english <-- find_text "english" item ;;
  let synonyms := snd (list_append (map Some syn) english) in
  chapters <-- find_text "chapters" item ;;
  volumes <-- find_text "volumes" item ;;
  average <-- find_text "score" item ;;
  manga_start <-- find_text "start_date" item ;;
  manga_end <-- find_text "end_date" item ;;
  syn_raw <-- find_text "synopsis" item ;;
  stripped <-- on_str syn_raw (replace "<br />" "") ;;
  let synopsis := unescape stripped in
  image <-- find_text "image" item ;;
  status <-- find_text "status" item ;;
  type <-- find_text "type" item ;;
  Ok (mkManga id title synonyms chapters volumes average manga_start manga_end
        synopsis image status type).

Definition anime_items (items : list ET.Element) : result (list pyval) :=
  rmap (fun item => a <-- anime_item item ;; Ok (PyAnime a)) items.

Definition manga_items (items : list ET.Element) : result (list pyval) :=
  rmap (fun item => m <-- manga_item item ;; Ok (PyManga m)) items.

Definition _search (which : Z) (term : string) : M (list pyval) :=
  s <- get_self ;;
  let u := apiurl s ++ (if which =? 1 then "anime" else "manga") ++ "/search.xml" in
  r <- requests_get u
         [("params", Dict [("q", term)]);
          ("auth", HTTPBasicAuth (_username s) (_password s));
          ("headers", Dict (header s))] ;;
  if negb (status_code r =? 200) then ret []
  else
    lift (data <-- fromstring (text r) ;;
          if which =? 1 then
            root <-- ET.getroot data ;;
            anime_items (ET.findall "entry" root)
          else
            root <-- ET.getroot data ;;
            manga_items (ET.findall "entry" root)).

Definition _search_anime (term : string) : M (list pyval) := _search 1 term.

Definition _search_manga (term : string) : M (list pyval) := _search 2 term.

Definition not_anime (v : pyval) : string :=
  "Invalid type: data should be a Pymoe.Mal.Objects.Anime object. Got a "
  ++ type_repr v.

Definition not_manga (v : pyval) : string :=
  "Invalid type: data should be a Pymoe.Mal.Objects.Manga object. Got a "
  ++ type_repr v.

Definition _anime_add (data : pyval) : M bool :=
  match data with
  | PyAnime a =>
      s <- get_self ;;
      let xmlstr := anime_to_xml a in
      r <- requests_post (apiurl s ++ "animelist/add/" ++ format_text (a_id a) ++ ".xml")
             [("params", Dict [("data", xmlstr)]);
              ("auth", HTTPBasicAuth (_username s) (_password s));
              ("headers", Dict (header s))] ;;
      if negb (status_code r =? 201) then raise (ServerError (text r))
      else ret true
  | _ => raise (SyntaxError (not_anime data))
  end.

Definition _manga_add (data : pyval) : M bool :=
  match data with
  | PyManga m =>
      s <- get_self ;;
      let xmlstr := manga_to_xml m in
      r <- requests_post (apiurl s ++ "mangalist/add/" ++ format_text (m_id m) ++ ".xml")
             [("params", Dict [("data", xmlstr)]);
              ("auth", HTTPBasicAuth (_username s) (_password s));
              ("headers", Dict (header s))] ;;
      if negb (status_code r =? 201) then raise (ServerError (text r))
      else ret true
  | _ => raise (SyntaxError (not_manga data))
  end.

Definition _anime_update (data : pyval) : M bool :=
  match data with
  | PyAnime a =>
      s <- get_self ;;
      let xmlstr := anime_to_xml a in
      r <- requests_post (apiurl s ++ "animelist/update/" ++ format_text (a_id a) ++ ".xml")
             [("params", Dict [("data", xmlstr)]);
              ("auth", HTTPBasicAuth (_username s) (_password s));
              ("Headers", Dict (header s))] ;;
      if negb (status_code r =? 200) then raise (ServerError (text r))
      else ret true
  | _ => raise (SyntaxError (not_anime data))
  end.

Definition _manga_update (data : pyval) : M bool :=
  match data with
  | PyManga m =>
      s <- get_self ;;
      let xmlstr := manga_to_xml m in
      r <- requests_post (apiurl s ++ "mangalist/update/" ++ format_text (m_id m) ++ ".xml")
             [("params", Dict [("data", xmlstr)]);
              ("auth", HTTPBasicAuth (_username s) (_password s));
              ("Headers", Dict (header s))] ;;
      if negb (status_code r =? 200) then raise (ServerError (text r))
      else ret true
  | _ => raise (SyntaxError (not_manga data))
  end.

Definition _anime_delete (data : pyval) : M bool :=
  match data with
  | PyAnime a =>
      s <- get_self ;;
      r <- requests_post (apiurl s ++ "animelist/delete/" ++ format_text (a_id a) ++ ".xml")
             [("auth", HTTPBasicAuth (_username s) (_password s));
              ("Headers", Dict (header s))] ;;
      if negb (status_code r =? 200) then raise (ServerError (text r))
      else ret true
  | _ => raise (SyntaxError (not_anime data))
  end.

Definition _manga_delete (data : pyval) : M bool :=
  match data with
  | PyManga m =>
      s <- get_self ;;
      r <- requests_post (apiurl s ++ "mangalist/delete/" ++ format_text (m_id m) ++ ".xml")
             [("auth", HTTPBasicAuth (_username s) (_password s));
              ("Headers", Dict (header s))] ;;
      if negb (status_code r =? 200) then raise (ServerError (text r))
      else ret true
  | _ => raise (SyntaxError (not_manga data))
  end.

(** [root.find('myinfo').find(t).text]. *)
Definition myinfo (t : string) (root : ET.Element) : result (option string) :=
  mi <-- find_in "myinfo" root ;;
  find_text t mi.

Definition parse_anime_data (xml : string) : result listing :=
  doc <-- fromstring xml ;;
  root <-- ET.getroot doc ;;
  anime_list <-- anime_items (ET.findall "anime" root) ;;
  completed <-- myinfo "user_completed" root ;;
  onhold <-- myinfo "user_onhold" root ;;
  dropped <-- myinfo "user_dropped" root ;;
  planned <-- myinfo "user_plantowatch" root ;;
  watching <-- myinfo "user_watching" root ;;
  days <-- myinfo "user_days_spent_watching" root ;;
  Ok (mkListing anime_list completed onhold dropped planned watching days).

Definition parse_manga_data (xml : string) : result listing :=
  doc <-- fromstring xml ;;
  root <-- ET.getroot doc ;;
  manga_list <-- manga_items (ET.findall "manga" root) ;;
  completed <-- myinfo "user_completed" root ;;
  onhold <-- myinfo "user_onhold" root ;;
  dropped <-- myinfo "user_dropped" root ;;
  planned <-- myinfo "user_plantoread" root ;;
  watching <-- myinfo "user_reading" root ;;
  days <-- myinfo "user_days_spent_watching" root ;;
  Ok (mkListing manga_list completed onhold dropped planned watching days).

Definition user_params (name kind : string) : kwval :=
  Dict [("u", name); ("status", "all"); ("type", kind)].

Definition user (name : string) : M User :=
  s <- get_self ;;
  anime_data <- requests_get (apiusers s)
                  [("params", user_params name "anime");
                   ("headers", Dict (header s))] ;;
  manga_data <- requests_get (apiusers s)
                  [("params", user_params name "manga");
                   ("headers", Dict (header s))] ;;
  lift (root <-- fromstring (text anime_data) ;;
        uid <-- (r <-- ET.getroot root ;; myinfo "user_id" r) ;;
        uname <-- (r <-- ET.getroot root ;; myinfo "user_name" r) ;;
        anime_object_list <-- parse_anime_data (text anime_data) ;;
        manga_object_list <-- parse_manga_data (text manga_data) ;;
        Ok {| u_uid := uid;
              u_name := uname;
              anime_list := data anime_object_list;
              anime_complete := completed anime_object_list;
              anime_onhold := onhold anime_object_list;
              anime_dropped := dropped anime_object_list;
              anime_planned := planned anime_object_list;
              anime_watching := watching anime_object_list;
              anime_days := days anime_object_list;
              manga_list := data manga_object_list;
              manga_completed := completed manga_object_list;
              manga_onhold := onhold manga_object_list;
              manga_dropped := dropped manga_object_list;
              manga_planned := planned manga_object_list;
              manga_watching := watching manga_object_list;
              manga_days := days manga_object_list |}).

(** ** The requests the methods are expected to send *)

Definition basic_auth (s : MAL) : option (string * string) :=
  Some (_username s, _password s).

Definition verify_request (s : MAL) : request :=
  {| meth := GET;
     url := apiurl s ++ "account/verify_credentials.xml";
     params := [];
     auth := basic_auth s;
     headers := header s |}.

Definition search_request (s : MAL) (which : Z) (term : string) : request :=
  {| meth := GET;
     url := apiurl s ++ (if which =? 1 then "anime" else "manga") ++ "/search.xml";
     params := [("q", term)];
     auth := basic_auth s;
     headers := header s |}.

Definition anime_add_request (s : MAL) (a : Anime) : request :=
  {| meth := POST;
     url := apiurl s ++ "animelist/add/" ++ format_text (a_id a) ++ ".xml";
     params := [("data", anime_to_xml a)];
     auth := basic_auth s;
     headers := header s |}.

Definition manga_add_request (s : MAL) (m : Manga) : request :=
  {| meth := POST;
     url := apiurl s ++ "mangalist/add/" ++ format_text (m_id m) ++ ".xml";
     params := [("data", manga_to_xml m)];
     auth := basic_auth s;
     headers := header s |}.

Definition user_request (s : MAL) (name kind : string) : request :=
  {| meth := GET;
     url := apiusers s;
     params := [("u", name); ("status", "all"); ("type", kind)];
     auth := None;
     headers := header s |}.

(** The world after the requests [rqs] have gone out. *)
Definition after (w : world) (rqs : list request) : world :=
  {| self := self w; sent := (sent w ++ rqs)%list |}.

(** The instance that [__init__] builds. *)
Definition new_self (username password : string) : MAL :=
  {| apiurl := "https://myanimelist.net/api/";
     apiusers := "https://myanimelist.net/malappinfo.php";
     header := [("User-Agent", "Pymoe (git.vertinext.com/ccubed/Pymoe)")];
     _username := username;
     _password := password |}.

(** A computation that leaves the instance as it found it. *)
Definition keeps_self {A} (c : M A) : Prop :=
  forall w, self (snd (c w)) = self w.

(** What [ET.fromstring(s).getroot()] raises. *)
Definition getroot_failure (s : string) : exn :=
  match xml_parse s with
  | Some _ => AttributeError
  | None => ParseError
  end.

(** ** What an item must hold, and what the requests may carry *)

(** The children that the anime loop body reads, in the order it reads
    them, and those of the manga loop body. *)
Definition anime_tags : list string :=
  ["synonyms"; "id"; "title"; "english"; "episodes"; "score"; "start_date";
   "end_date"; "synopsis"; "image"; "status"; "type"].

Definition manga_tags : list string :=
  ["synonyms"; "id"; "title"; "english"; "chapters"; "volumes"; "score";
   "start_date"; "end_date"; "synopsis"; "image"; "status"; "type"].

Definition has_child (item : ET.Element) (t : string) : bool :=
  match ET.find t item with
  | Some _ => true
  | None => false
  end.

Definition has_text (item : ET.Element) (t : string) : bool :=
  match ET.find t item with
  | Some c => match ET.text c with Some _ => true | None => false end
  | None => false
  end.

(** An item that a loop body can turn into a record: every child it
    reads is there, and the two on which it calls a string method have a
    text. *)
Definition anime_ready (item : ET.Element) : bool :=
  forallb (has_child item) anime_tags
  && has_text item "synonyms" && has_text item "synopsis".

Definition manga_ready (item : ET.Element) : bool :=
  forallb (has_child item) manga_tags
  && has_text item "synonyms" && has_text item "synopsis".

(** A text without the character [<]. *)
Fixpoint no_lt (s : string) : bool :=
  match s with
  | EmptyString => true
  | String a s' => negb (Ascii.eqb a "<") && no_lt s'
  end.

(** Run from a world whose instance is [s], the computation [c] leaves the
    instance alone and adds to the requests sent only requests that
    satisfy [P]. *)
Definition sends_only (P : request -> Prop) (s : MAL) {A} (c : M A) : Prop :=
  forall w, self w = s ->
    exists rqs, snd (c w) = after w rqs /\ Forall P rqs.

Definition carries_header (s : MAL) (rq : request) : Prop :=
  headers rq = header s.

(** ** Properties *)

(** *** Strings and items *)

Lemma split_not_nil (c : ascii) (s : string) : split c s <> [].
Proof.
  destruct s as [|a s']; simpl.
  - discriminate.
  - destruct (Ascii.eqb a c); [discriminate|].
    destruct (split c s'); discriminate.
Qed.

Lemma list_or_split (c : ascii) (s : string) :
  list_or (split c s) [] = split c s.
Proof.
  pose proof (split_not_nil c s) as H.
  destruct (split c s); [contradiction|reflexivity].
Qed.

Lemma rbind_ok {A B} (r : result A) (k : A -> result B) (b : B) :
  rbind r k = Ok b -> exists a, r = Ok a /\ k a = Ok b.
Proof.
  destruct r as [a|e]; simpl; intros H; [eauto|discriminate].
Qed.

Lemma rmap_raises {A B} (f : A -> result B) (e0 : exn) (l : list A) (x : A) :
  (forall y e, f y = Raise e -> e = e0) ->
  In x l -> f x = Raise e0 -> rmap f l = Raise e0.
Proof.
  intros Hall Hin Hx.
  induction l as [|y l IH]; simpl in *; [contradiction|].
  destruct Hin as [->|Hin].
  - rewrite Hx; reflexivity.
  - destruct (f y) eqn:E.
    + rewrite (IH Hin); reflexivity.
    + apply Hall in E; subst; reflexivity.
Qed.

Ltac invert_binds H :=
  repeat (let x := fresh "x" in
          let Hx := fresh "Hx" in
          apply rbind_ok in H; destruct H as (x & Hx & H)).

(** *** The network *)

Lemma getroot_fromstring (s : string) {A} (k : ET.Element -> result A) :
  (doc <-- fromstring s ;; root <-- ET.getroot doc ;; k root)
  = Raise (getroot_failure s).
Proof.
  unfold fromstring, getroot_failure.
  destruct (xml_parse s); reflexivity.
Qed.

Lemma bind_get_self {A} (k : MAL -> M A) (w : world) :
  bind get_self k w = k (self w) w.
Proof. reflexivity. Qed.

Lemma bind_request_known {A} m u kwargs (k : response -> M A) (w : world) :
  forallb (fun kv => known_keyword (fst kv)) kwargs = true ->
  bind (requests_request m u kwargs) k w
  = k (server (sent w) (build_request m u kwargs))
      (after w [build_request m u kwargs]).
Proof.
  intros H; unfold bind, requests_request; rewrite H; reflexivity.
Qed.

Lemma bind_request_unknown {A} m u kwargs (k : response -> M A) (w : world) :
  forallb (fun kv => known_keyword (fst kv)) kwargs = false ->
  bind (requests_request m u kwargs) k w = (Raise TypeError, w).
Proof.
  intros H; unfold bind, requests_request; rewrite H; reflexivity.
Qed.

Lemma keeps_self_ret {A} (v : A) : keeps_self (ret v).
Proof. intros w; reflexivity. Qed.

Lemma keeps_self_raise {A} (e : exn) : keeps_self (raise (A:=A) e).
Proof. intros w; reflexivity. Qed.

Lemma keeps_self_lift {A} (r : result A) : keeps_self (lift r).
Proof. intros w; reflexivity. Qed.

Lemma keeps_self_get_self : keeps_self get_self.
Proof. intros w; reflexivity. Qed.

Lemma keeps_self_request m u kwargs : keeps_self (requests_request m u kwargs).
Proof.
  intros w; unfold requests_request.
  destruct (forallb _ kwargs); reflexivity.
Qed.

Lemma keeps_self_bind {A B} (c : M A) (k : A -> M B) :
  keeps_self c -> (forall a, keeps_self (k a)) -> keeps_self (bind c k).
Proof.
  intros Hc Hk w; unfold bind.
  specialize (Hc w).
  destruct (c w) as [[a|e] w']; simpl in *.
  - rewrite Hk; assumption.
  - assumption.
Qed.

Lemma keeps_self_if {A} (b : bool) (c d : M A) :
  keeps_self c -> keeps_self d -> keeps_self (if b then c else d).
Proof. destruct b; auto. Qed.

Ltac frame :=
  repeat first
    [ apply keeps_self_bind; [|intro]
    | apply keeps_self_if
    | apply keeps_self_request
    | apply keeps_self_get_self
    | apply keeps_self_ret
    | apply keeps_self_raise
    | apply keeps_self_lift ].

(** *** Search *)

Lemma search_sends {A} (which : Z) (term : string)
    (k : response -> M A) (w : world) :
  bind (requests_get
          (apiurl (self w) ++ (if which =? 1 then "anime" else "manga")
           ++ "/search.xml")
          [("params", Dict [("q", term)]);
           ("auth", HTTPBasicAuth (_username (self w)) (_password (self w)));
           ("headers", Dict (header (self w)))]) k w
  = k (server (sent w) (search_request (self w) which term))
      (after w [search_request (self w) which term]).
Proof.
  unfold requests_get; rewrite bind_request_known by reflexivity.
  reflexivity.
Qed.

(** C1: when the search response has status 200, [_search] does not return
    a list of records: [ET.fromstring] gives an [Element], the call of
    [getroot] on it raises [AttributeError] (and a text that is not
    well-formed raises [ParseError]), whatever the entries are. *)
Theorem search_status_200_raises (which : Z) (term : string) (w : world) :
  status_code (server (sent w) (search_request (self w) which term)) = 200 ->
  _search which term w
  = (Raise (getroot_failure
              (text (server (sent w) (search_request (self w) which term)))),
     after w [search_request (self w) which term]).
Proof.
  intros H200.
  unfold _search; rewrite bind_get_self, search_sends.
  rewrite H200; cbn [Z.eqb Pos.eqb negb].
  unfold lift; f_equal.
  destruct (which =? 1); apply getroot_fromstring.
Qed.

(** C7: when the search response has a status other than 200, [_search]
    returns the empty list and raises nothing. *)
Theorem search_non_200_empty (which : Z) (term : string) (w : world) :
  status_code (server (sent w) (search_request (self w) which term)) <> 200 ->
  _search which term w = (Ok [], after w [search_request (self w) which term]).
Proof.
  intros Hne.
  unfold _search; rewrite bind_get_self, search_sends.
  apply Z.eqb_neq in Hne; rewrite Hne; reflexivity.
Qed.

(** *** Items *)

Ltac find_cases H item :=
  repeat match type of H with
         | context [ET.find ?t item] =>
             destruct (ET.find t item); cbn [rbind] in H
         | context [ET.text ?c] =>
             destruct (ET.text c); cbn [rbind] in H
         end.

(** Whatever goes wrong in a loop body is an [AttributeError]. *)
Lemma anime_item_raises (item : ET.Element) (e : exn) :
  anime_item item = Raise e -> e = AttributeError.
Proof.
  intros H; unfold anime_item, find_text, on_str in H.
  find_cases H item; congruence.
Qed.

Lemma manga_item_raises (item : ET.Element) (e : exn) :
  manga_item item = Raise e -> e = AttributeError.
Proof.
  intros H; unfold manga_item, find_text, on_str in H.
  find_cases H item; congruence.
Qed.

Lemma anime_items_raise (item : ET.Element) (items : list ET.Element) :
  In item items -> anime_item item = Raise AttributeError ->
  anime_items items = Raise AttributeError.
Proof.
  intros Hin Hitem; unfold anime_items.
  apply rmap_raises with (x := item); [|assumption|rewrite Hitem; reflexivity].
  intros y e H.
  destruct (anime_item y) eqn:E; simpl in H; [discriminate|].
  injection H as <-; eapply anime_item_raises; eassumption.
Qed.

Lemma manga_items_raise (item : ET.Element) (items : list ET.Element) :
  In item items -> manga_item item = Raise AttributeError ->
  manga_items items = Raise AttributeError.
Proof.
  intros Hin Hitem; unfold manga_items.
  apply rmap_raises with (x := item); [|assumption|rewrite Hitem; reflexivity].
  intros y e H.
  destruct (manga_item y) eqn:E; simpl in H; [discriminate|].
  injection H as <-; eapply manga_item_raises; eassumption.
Qed.

(** *** Adding, updating, deleting *)

(** C5: [_anime_add] on an [Anime] and [_manga_add] on a [Manga] send one
    POST; they return [True] when the status is 201 and raise
    [ServerError] with the body of the response otherwise. *)
Theorem add_returns_on_201 (a : Anime) (m : Manga) (w : world) :
  let ra := server (sent w) (anime_add_request (self w) a) in
  let rm := server (sent w) (manga_add_request (self w) m) in
  _anime_add (PyAnime a) w
  = (if status_code ra =? 201 then Ok true else Raise (ServerError (text ra)),
     after w [anime_add_request (self w) a])
  /\ _manga_add (PyManga m) w
  = (if status_code rm =? 201 then Ok true else Raise (ServerError (text rm)),
     after w [manga_add_request (self w) m])
  /\ (fst (_anime_add (PyAnime a) w) = Ok true <-> status_code ra = 201)
  /\ (fst (_manga_add (PyManga m) w) = Ok true <-> status_code rm = 201).
Proof.
  intros ra rm.
  assert (Ea : _anime_add (PyAnime a) w
    = (if status_code ra =? 201 then Ok true else Raise (ServerError (text ra)),
       after w [anime_add_request (self w) a])).
  { unfold _anime_add; rewrite bind_get_self; unfold requests_post.
    rewrite bind_request_known by reflexivity.
    change (build_request POST _ _) with (anime_add_request (self w) a).
    fold ra; destruct (status_code ra =? 201); reflexivity. }
  assert (Em : _manga_add (PyManga m) w
    = (if status_code rm =? 201 then Ok true else Raise (ServerError (text rm)),
       after w [manga_add_request (self w) m])).
  { unfold _manga_add; rewrite bind_get_self; unfold requests_post.
    rewrite bind_request_known by reflexivity.
    change (build_request POST _ _) with (manga_add_request (self w) m).
    fold rm; destruct (status_code rm =? 201); reflexivity. }
  repeat split; try assumption; rewrite ?Ea, ?Em; cbn [fst].
  - destruct (Z.eqb_spec (status_code ra) 201); [trivial|discriminate].
  - intros ->; reflexivity.
  - destruct (Z.eqb_spec (status_code rm) 201); [trivial|discriminate].
  - intros ->; reflexivity.
Qed.

(** C3, as the code has it: a value of the wrong class makes each of the
    six methods raise [SyntaxError], with the message that names the
    expected class, and nothing is sent. *)
Theorem wrong_type_raises_syntax_error (d d' : pyval) (w : world) :
  is_anime d = false ->
  is_manga d' = false ->
  _anime_add d w = (Raise (SyntaxError (not_anime d)), w) /\
  _anime_update d w = (Raise (SyntaxError (not_anime d)), w) /\
  _anime_delete d w = (Raise (SyntaxError (not_anime d)), w) /\
  _manga_add d' w = (Raise (SyntaxError (not_manga d')), w) /\
  _manga_update d' w = (Raise (SyntaxError (not_manga d')), w) /\
  _manga_delete d' w = (Raise (SyntaxError (not_manga d')), w).
Proof.
  intros Hd Hd'.
  destruct d; try discriminate Hd; destruct d'; try discriminate Hd';
    repeat split; reflexivity.
Qed.

(** C4: on a record of the right class the update and delete methods
    raise [TypeError] and send nothing, whatever the server would answer:
    the keyword [Headers] is not one that [requests] accepts. *)
Theorem update_delete_raise_type_error (a : Anime) (m : Manga) (w : world) :
  _anime_update (PyAnime a) w = (Raise TypeError, w) /\
  _manga_update (PyManga m) w = (Raise TypeError, w) /\
  _anime_delete (PyAnime a) w = (Raise TypeError, w) /\
  _manga_delete (PyManga m) w = (Raise TypeError, w).
Proof.
  unfold _anime_update, _manga_update, _anime_delete, _manga_delete.
  rewrite !bind_get_self; unfold requests_post.
  repeat split; apply bind_request_unknown; reflexivity.
Qed.

(** *** The user *)

(** C8: [user] sends the two GETs, then raises: [ET.fromstring] gives an
    [Element] and [getroot] is called on it.  No [User] record is ever
    returned. *)
Theorem user_sends_two_gets_then_raises (name : string) (w : world) :
  let g1 := user_request (self w) name "anime" in
  let g2 := user_request (self w) name "manga" in
  user name w
  = (Raise (getroot_failure (text (server (sent w) g1))), after w [g1; g2]).
Proof.
  intros g1 g2.
  unfold user; rewrite bind_get_self; unfold requests_get.
  rewrite bind_request_known by reflexivity.
  rewrite bind_request_known by reflexivity.
  change (build_request GET (apiusers (self w))
            [("params", user_params name "anime");
             ("headers", Dict (header (self w)))]) with g1.
  change (build_request GET (apiusers (self (after w [g1])))
            [("params", user_params name "manga");
             ("headers", Dict (header (self (after w [g1]))))]) with g2.
  unfold lift, after; cbn [self sent].
  rewrite <- app_assoc; cbn [app].
  f_equal.
  unfold fromstring, getroot_failure.
  destruct (xml_parse (text (server (sent w) g1))); reflexivity.
Qed.

(** *** The frame *)

(** C9: no method changes the instance: the addresses, the header, the
    user name and the password are after a call what they were before. *)
Theorem methods_keep_self (term name : string) (d : pyval) :
  keeps_self _verify_credentials /\
  keeps_self (_search_anime term) /\
  keeps_self (_search_manga term) /\
  keeps_self (_anime_add d) /\
  keeps_self (_manga_add d) /\
  keeps_self (_anime_update d) /\
  keeps_self (_manga_update d) /\
  keeps_self (_anime_delete d) /\
  keeps_self (_manga_delete d) /\
  keeps_self (user name).
Proof.
  unfold _verify_credentials, _search_anime, _search_manga, _search,
    _anime_add, _manga_add, _anime_update, _manga_update,
    _anime_delete, _manga_delete, user, requests_get, requests_post.
  repeat split; try (destruct d); frame.
Qed.

(** ** Further properties of the methods *)

(** *** The parsers of the user lists *)

(** Called on any text, the two static methods raise and return no
    dictionary: [AttributeError] on a well-formed text, for [getroot] is
    asked of an [Element], and [ParseError] otherwise. *)
Theorem parse_data_always_raises (xml : string) :
  parse_anime_data xml = Raise (getroot_failure xml) /\
  parse_manga_data xml = Raise (getroot_failure xml) /\
  (forall d, parse_anime_data xml <> Ok d) /\
  (forall d, parse_manga_data xml <> Ok d).
Proof.
  assert (Ea : parse_anime_data xml = Raise (getroot_failure xml))
    by apply getroot_fromstring.
  assert (Em : parse_manga_data xml = Raise (getroot_failure xml))
    by apply getroot_fromstring.
  repeat split; try assumption; intros d; rewrite ?Ea, ?Em; discriminate.
Qed.

(** *** Search, whatever the status *)

Lemma search_cases (which : Z) (term : string) (w : world) :
  let r := server (sent w) (search_request (self w) which term) in
  _search which term w
  = (if status_code r =? 200 then Raise (getroot_failure (text r)) else Ok [],
     after w [search_request (self w) which term]).
Proof.
  intros r.
  unfold _search; rewrite bind_get_self, search_sends; fold r.
  destruct (status_code r =? 200); cbn [negb]; [|reflexivity].
  unfold lift; f_equal.
  destruct (which =? 1); apply getroot_fromstring.
Qed.

(** A [which] that is neither 1 nor 2 is taken for 2: the search goes to
    the manga address and ends as the manga search does. *)
Theorem search_other_which_is_manga (which : Z) (term : string) (w : world) :
  which <> 1 ->
  _search which term w = _search_manga term w.
Proof.
  intros H; apply Z.eqb_neq in H.
  unfold _search_manga, _search; rewrite H; reflexivity.
Qed.

(** A search that returns returns the empty list, and the status was not
    200: no record has ever come out of [_search]. *)
Theorem search_never_returns_records (which : Z) (term : string) (w : world)
    (l : list pyval) :
  fst (_search which term w) = Ok l ->
  l = [] /\
  status_code (server (sent w) (search_request (self w) which term)) <> 200.
Proof.
  rewrite search_cases; cbn [fst].
  destruct (Z.eqb_spec
              (status_code (server (sent w) (search_request (self w) which term)))
              200) as [E|E]; intros H.
  - discriminate.
  - injection H as <-; split; [reflexivity|assumption].
Qed.

(** *** Updating and deleting, whatever the data *)

(** The update and delete methods never reach the network and never
    return: for every value they raise, and the requests sent are the
    same after as before. *)
Theorem update_delete_never_send (d : pyval) (w : world) :
  (exists e, _anime_update d w = (Raise e, w)) /\
  (exists e, _manga_update d w = (Raise e, w)) /\
  (exists e, _anime_delete d w = (Raise e, w)) /\
  (exists e, _manga_delete d w = (Raise e, w)).
Proof.
  unfold _anime_update, _manga_update, _anime_delete, _manga_delete,
    requests_post.
  repeat split; destruct d; eexists;
    first [ reflexivity
          | rewrite bind_get_self; apply bind_request_unknown; reflexivity ].
Qed.

(** *** Construction, then a call *)

Lemma init_cases (username password : string) (log : list request) :
  let s := new_self username password in
  __init__ username password log
  = (if status_code (server log (verify_request s)) =? 200 then Ok s
     else Raise (UserLoginFailed "Username or Password incorrect."),
     (log ++ [verify_request s])%list).
Proof.
  intros s.
  unfold __init__, _verify_credentials.
  rewrite bind_get_self; unfold requests_get.
  rewrite bind_request_known by reflexivity.
  change (build_request GET _ _) with (verify_request s).
  cbn [self sent].
  destruct (status_code (server log (verify_request s)) =? 200); reflexivity.
Qed.

(** A name or a password with a character above 255 ends the construction
    with [UnicodeEncodeError]; nothing is sent. *)
Lemma construction_unencodable (username password : pystr)
    (log : list request) :
  latin1 username = None \/ latin1 password = None ->
  MAL_new username password log = (Raise UnicodeEncodeError, log).
Proof.
  unfold MAL_new, encode_auth; intros [H|H]; rewrite H.
  - reflexivity.
  - destruct (latin1 username); reflexivity.
Qed.

(** C6, as the code has it: for a name and a password that latin-1 can
    hold, [MAL(username, password)] sends one GET to the verification
    address with basic authentication; it returns the instance when the
    status is 200 and raises [UserLoginFailed] exactly when it is not. *)
Theorem construction_verifies_credentials (username password : pystr)
    (u p : string) (log : list request) :
  latin1 username = Some u ->
  latin1 password = Some p ->
  let s := new_self u p in
  let r := server log (verify_request s) in
  MAL_new username password log
  = (if status_code r =? 200 then Ok s
     else Raise (UserLoginFailed "Username or Password incorrect."),
     (log ++ [verify_request s])%list)
  /\ meth (verify_request s) = GET
  /\ auth (verify_request s) = Some (u, p)
  /\ ((exists msg, fst (MAL_new username password log)
                   = Raise (UserLoginFailed msg))
      <-> status_code r <> 200).
Proof.
  intros Hu Hp s r.
  assert (E : MAL_new username password log
              = (if status_code r =? 200 then Ok s
                 else Raise (UserLoginFailed "Username or Password incorrect."),
                 (log ++ [verify_request s])%list)).
  { unfold MAL_new, encode_auth; rewrite Hu, Hp; apply init_cases. }
  split; [exact E|]. split; [reflexivity|]. split; [reflexivity|].
  rewrite E; cbn [fst].
  destruct (Z.eqb_spec (status_code r) 200) as [H|H].
  - split; [intros [msg Hm]; discriminate | intros Hn; contradiction].
  - split; [intros _; exact H | intros _; eauto].
Qed.

(** An instance that [MAL(username, password)] has returned sends, when
    searched with, one GET to the search address of the service, with the
    term, the name and the password it was built with, and the
    User-Agent header, right after the verification request. *)
Theorem constructed_client_searches_with_its_credentials
    (username password : string) (log log' : list request) (s : MAL)
    (which : Z) (term : string) :
  __init__ username password log = (Ok s, log') ->
  sent (snd (_search which term {| self := s; sent := log' |}))
  = (log ++
     [verify_request (new_self username password);
      {| meth := GET;
         url := "https://myanimelist.net/api/"
                ++ (if which =? 1 then "anime" else "manga") ++ "/search.xml";
         params := [("q", term)];
         auth := Some (username, password);
         headers := [("User-Agent", "Pymoe (git.vertinext.com/ccubed/Pymoe)")]
      |}])%list.
Proof.
  rewrite init_cases.
  destruct (status_code _ =? 200); intros H; [|discriminate].
  injection H as <- <-.
  rewrite search_cases; cbn [snd after sent self].
  rewrite <- app_assoc; reflexivity.
Qed.

(** *** What the methods send *)

Lemma after_nil (w : world) : after w [] = w.
Proof. destruct w; unfold after; cbn; rewrite app_nil_r; reflexivity. Qed.

Lemma after_after (w : world) (r1 r2 : list request) :
  after (after w r1) r2 = after w (r1 ++ r2).
Proof. unfold after; cbn; rewrite app_assoc; reflexivity. Qed.

Section SendsOnly.

Variable P : request -> Prop.
Variable s : MAL.

Lemma sends_only_quiet {A} (c : M A) :
  (forall w, snd (c w) = w) -> sends_only P s c.
Proof.
  intros H w _; exists []; rewrite H, after_nil; auto.
Qed.

Lemma sends_only_ret {A} (v : A) : sends_only P s (ret v).
Proof. apply sends_only_quiet; reflexivity. Qed.

Lemma sends_only_raise {A} (e : exn) : sends_only P s (raise (A:=A) e).
Proof. apply sends_only_quiet; reflexivity. Qed.

Lemma sends_only_lift {A} (r : result A) : sends_only P s (lift r).
Proof. apply sends_only_quiet; reflexivity. Qed.

Lemma sends_only_request m u kwargs :
  (forallb (fun kv => known_keyword (fst kv)) kwargs = true ->
   P (build_request m u kwargs)) ->
  sends_only P s (requests_request m u kwargs).
Proof.
  intros H w _; unfold requests_request.
  destruct (forallb _ kwargs).
  - exists [build_request m u kwargs]; split; [reflexivity|auto].
  - exists []; rewrite after_nil; auto.
Qed.

Lemma sends_only_bind {A B} (c : M A) (k : A -> M B) :
  sends_only P s c -> (forall a, sends_only P s (k a)) ->
  sends_only P s (bind c k).
Proof.
  intros Hc Hk w Hw; unfold bind.
  destruct (Hc w Hw) as (r1 & E1 & F1).
  destruct (c w) as [[a|e] w1]; cbn [snd] in E1; subst w1.
  - destruct (Hk a (after w r1) Hw) as (r2 & E2 & F2).
    exists (r1 ++ r2)%list; rewrite E2, after_after; split; [reflexivity|].
    apply Forall_app; auto.
  - exists r1; auto.
Qed.

Lemma sends_only_with_self {A} (k : MAL -> M A) :
  sends_only P s (k s) -> sends_only P s (bind get_self k).
Proof.
  intros H w Hw; rewrite bind_get_self, Hw; auto.
Qed.

Lemma sends_only_if {A} (b : bool) (c d : M A) :
  sends_only P s c -> sends_only P s d -> sends_only P s (if b then c else d).
Proof. destruct b; auto. Qed.

End SendsOnly.

Ltac sends tac :=
  repeat first
    [ apply sends_only_with_self
    | apply sends_only_bind; [|intro]
    | apply sends_only_if
    | apply sends_only_ret
    | apply sends_only_raise
    | apply sends_only_lift
    | apply sends_only_request;
      let Hk := fresh "Hk" in intro Hk; first [discriminate Hk | tac] ].

(** Whatever a method adds to the requests sent carries the header of the
    instance, the User-Agent with it; requests already sent stay as they
    are, and the instance too. *)
Theorem every_request_carries_the_header (s : MAL) (term name : string)
    (d : pyval) :
  sends_only (carries_header s) s _verify_credentials /\
  sends_only (carries_header s) s (_search_anime term) /\
  sends_only (carries_header s) s (_search_manga term) /\
  sends_only (carries_header s) s (_anime_add d) /\
  sends_only (carries_header s) s (_manga_add d) /\
  sends_only (carries_header s) s (_anime_update d) /\
  sends_only (carries_header s) s (_manga_update d) /\
  sends_only (carries_header s) s (_anime_delete d) /\
  sends_only (carries_header s) s (_manga_delete d) /\
  sends_only (carries_header s) s (user name).
Proof.
  unfold _verify_credentials, _search_anime, _search_manga, _search,
    _anime_add, _manga_add, _anime_update, _manga_update,
    _anime_delete, _manga_delete, user, requests_get, requests_post.
  repeat split; try (destruct d); sends ltac:(reflexivity).
Qed.

(** *** What a loop body puts in a record *)

Lemma on_str_ok {A} (v : option string) (f : string -> A) (b : A) :
  on_str v f = Ok b -> exists x, v = Some x /\ b = f x.
Proof.
  destruct v as [x|]; cbn; intros H; [|discriminate].
  injection H as <-; eauto.
Qed.

(** When the anime loop body builds a record, each field but two is the
    text of the first child of the item with the matching tag ([score]
    for [average], [start_date] and [end_date] for the dates); the
    synopsis is the text of [synopsis] without its ["<br />"] and
    unescaped; [synonyms] is [None], though [synonyms] had to have a text
    and [english] had to be there. *)
Theorem anime_item_fields (item : ET.Element) (a : Anime) :
  anime_item item = Ok a ->
  find_text "id" item = Ok (a_id a) /\
  find_text "title" item = Ok (a_title a) /\
  find_text "episodes" item = Ok (a_episodes a) /\
  find_text "score" item = Ok (a_average a) /\
  find_text "start_date" item = Ok (a_anime_start a) /\
  find_text "end_date" item = Ok (a_anime_end a) /\
  find_text "image" item = Ok (a_image a) /\
  find_text "status" item = Ok (a_status_anime a) /\
  find_text "type" item = Ok (a_type a) /\
  (exists raw, find_text "synopsis" item = Ok (Some raw) /\
               a_synopsis a = unescape (replace "<br />" "" raw)) /\
  (exists syn, find_text "synonyms" item = Ok (Some syn)) /\
  (exists en, find_text "english" item = Ok en) /\
  a_synonyms a = None.
Proof.
  intros H; unfold anime_item in H.
  invert_binds H.
  injection H as <-; cbn.
  repeat match goal with
         | Hs : on_str _ _ = Ok _ |- _ =>
             apply on_str_ok in Hs; destruct Hs as (? & -> & ->)
         end.
  repeat split; eauto.
Qed.

(** The same for the manga loop body, with [chapters] and [volumes] in
    the place of [episodes]. *)
Theorem manga_item_fields (item : ET.Element) (m : Manga) :
  manga_item item = Ok m ->
  find_text "id" item = Ok (m_id m) /\
  find_text "title" item = Ok (m_title m) /\
  find_text "chapters" item = Ok (m_chapters m) /\
  find_text "volumes" item = Ok (m_volumes m) /\
  find_text "score" item = Ok (m_average m) /\
  find_text "start_date" item = Ok (m_manga_start m) /\
  find_text "end_date" item = Ok (m_manga_end m) /\
  find_text "image" item = Ok (m_image m) /\
  find_text "status" item = Ok (m_status_manga m) /\
  find_text "type" item = Ok (m_type m) /\
  (exists raw, find_text "synopsis" item = Ok (Some raw) /\
               m_synopsis m = unescape (replace "<br />" "" raw)) /\
  (exists syn, find_text "synonyms" item = Ok (Some syn)) /\
  (exists en, find_text "english" item = Ok en) /\
  m_synonyms m = None.
Proof.
  intros H; unfold manga_item in H.
  invert_binds H.
  injection H as <-; cbn.
  repeat match goal with
         | Hs : on_str _ _ = Ok _ |- _ =>
             apply on_str_ok in Hs; destruct Hs as (? & -> & ->)
         end.
  repeat split; eauto.
Qed.

(** *** Which items a loop body accepts *)

Ltac child_step t item :=
  destruct (ET.find t item) as [?c|]; cbn [andb rbind];
  [|try reflexivity].

Ltac text_child_step t item :=
  let c := fresh "c" in
  destruct (ET.find t item) as [c|]; cbn [andb rbind];
  [destruct (ET.text c); cbn [andb rbind]|try reflexivity].

Lemma anime_item_ready_cases (item : ET.Element) :
  if anime_ready item then exists a, anime_item item = Ok a
  else anime_item item = Raise AttributeError.
Proof.
  unfold anime_ready, anime_item, anime_tags, has_child, has_text,
    find_text, on_str; cbn [forallb].
  text_child_step "synonyms" item;
  (child_step "id" item; child_step "title" item; child_step "english" item;
   child_step "episodes" item; child_step "score" item;
   child_step "start_date" item; child_step "end_date" item;
   text_child_step "synopsis" item;
   child_step "image" item; child_step "status" item; child_step "type" item;
   try reflexivity; eexists; reflexivity).
Qed.

Lemma manga_item_ready_cases (item : ET.Element) :
  if manga_ready item then exists m, manga_item item = Ok m
  else manga_item item = Raise AttributeError.
Proof.
  unfold manga_ready, manga_item, manga_tags, has_child, has_text,
    find_text, on_str; cbn [forallb].
  text_child_step "synonyms" item;
  (child_step "id" item; child_step "title" item; child_step "english" item;
   child_step "chapters" item; child_step "volumes" item;
   child_step "score" item;
   child_step "start_date" item; child_step "end_date" item;
   text_child_step "synopsis" item;
   child_step "image" item; child_step "status" item; child_step "type" item;
   try reflexivity; eexists; reflexivity).
Qed.

(** A loop body builds a record exactly for the items that have every
    child it reads, with a text in [synonyms] and in [synopsis]; for every
    other item it raises [AttributeError].  The texts of the other
    children may be missing: they reach the record as [None]. *)
Theorem item_parses_iff_ready (item : ET.Element) :
  ((exists a, anime_item item = Ok a) <-> anime_ready item = true) /\
  (anime_item item = Raise AttributeError <-> anime_ready item = false) /\
  ((exists m, manga_item item = Ok m) <-> manga_ready item = true) /\
  (manga_item item = Raise AttributeError <-> manga_ready item = false).
Proof.
  pose proof (anime_item_ready_cases item) as Ha.
  pose proof (manga_item_ready_cases item) as Hm.
  destruct (anime_ready item), (manga_ready item);
    repeat match goal with
           | H : exists _, _ |- _ => destruct H as [? H]
           end;
    repeat split; intros; eauto; try congruence;
    repeat match goal with
           | H : exists _, _ |- _ => destruct H as [? H]
           end; congruence.
Qed.

(** *** The loops *)

Lemma rmap_ok {A B} (f : A -> result B) (l : list A) (ys : list B) :
  rmap f l = Ok ys -> Forall2 (fun x y => f x = Ok y) l ys.
Proof.
  revert ys; induction l as [|x l IH]; cbn; intros ys H.
  - injection H as <-; constructor.
  - destruct (f x) as [y|] eqn:E; [|discriminate].
    destruct (rmap f l) as [ys'|]; [|discriminate].
    injection H as <-; constructor; auto.
Qed.

(** A loop that ends gives one record per item, in the order of the
    items, each of the class of the loop and built by the loop body from
    the item at the same place. *)
Theorem loop_one_record_per_item (items : list ET.Element) (l : list pyval) :
  (anime_items items = Ok l ->
   length l = length items /\
   Forall2 (fun item v => exists a, anime_item item = Ok a /\ v = PyAnime a)
     items l) /\
  (manga_items items = Ok l ->
   length l = length items /\
   Forall2 (fun item v => exists m, manga_item item = Ok m /\ v = PyManga m)
     items l).
Proof.
  split; intros H; apply rmap_ok in H;
    (split; [symmetry; eapply Forall2_length; eassumption|]);
    (eapply Forall2_impl; [|eassumption]); cbn; intros item v Hv.
  - destruct (anime_item item) as [a|]; cbn in Hv; [|discriminate].
    injection Hv as <-; eauto.
  - destruct (manga_item item) as [m|]; cbn in Hv; [|discriminate].
    injection Hv as <-; eauto.
Qed.

(** A loop gives a list when every item is one its body accepts; one
    item that is not, wherever it stands, makes the whole loop raise
    [AttributeError], and the records built before it are lost. *)
Theorem loop_all_or_nothing (items : list ET.Element) :
  (if forallb anime_ready items then exists l, anime_items items = Ok l
   else anime_items items = Raise AttributeError) /\
  (if forallb manga_ready items then exists l, manga_items items = Ok l
   else manga_items items = Raise AttributeError).
Proof.
  unfold anime_items, manga_items.
  induction items as [|item items [IHa IHm]]; cbn [forallb rmap].
  - split; eexists; reflexivity.
  - pose proof (anime_item_ready_cases item) as Ha.
    pose proof (manga_item_ready_cases item) as Hm.
    split.
    + destruct (anime_ready item); cbn [andb].
      * destruct Ha as [a ->]; cbn [rbind].
        destruct (forallb anime_ready items).
        -- destruct IHa as [l ->]; eexists; reflexivity.
        -- rewrite IHa; reflexivity.
      * rewrite Ha; reflexivity.
    + destruct (manga_ready item); cbn [andb].
      * destruct Hm as [m ->]; cbn [rbind].
        destruct (forallb manga_ready items).
        -- destruct IHm as [l ->]; eexists; reflexivity.
        -- rewrite IHm; reflexivity.
      * rewrite Hm; reflexivity.
Qed.

(** *** The synopsis *)

Lemma replace_br_no_lt (new s : string) :
  no_lt s = true -> replace "<br />" new s = s.
Proof.
  unfold replace; induction s as [|a s IH]; cbn [replace_from no_lt].
  - reflexivity.
  - intros H; apply andb_prop in H; destruct H as [Ha Hs].
    assert (E : String.prefix "<br />" (String a s) = false).
    { cbn [String.prefix].
      destruct (ascii_dec "<" a) as [<-|]; [discriminate Ha|reflexivity]. }
    rewrite E, (IH Hs); reflexivity.
Qed.

(** A synopsis that holds no [<] is handed to [html.unescape] as it is:
    the removal of ["<br />"] changes nothing in it. *)
Theorem plain_synopsis_is_only_unescaped (item : ET.Element) (raw : string) :
  find_text "synopsis" item = Ok (Some raw) ->
  no_lt raw = true ->
  (forall a, anime_item item = Ok a -> a_synopsis a = unescape raw) /\
  (forall m, manga_item item = Ok m -> m_synopsis m = unescape raw).
Proof.
  intros Hraw Hlt; split.
  - intros a H; unfold anime_item in H; invert_binds H.
    injection H as <-; cbn.
    match goal with
    | Hs : find_text "synopsis" item = Ok ?x |- _ =>
        rewrite Hraw in Hs; injection Hs as <-
    end.
    match goal with
    | Hs : on_str (Some raw) _ = Ok _ |- _ => cbn in Hs; injection Hs as <-
    end.
    rewrite replace_br_no_lt by assumption; reflexivity.
  - intros m H; unfold manga_item in H; invert_binds H.
    injection H as <-; cbn.
    match goal with
    | Hs : find_text "synopsis" item = Ok ?x |- _ =>
        rewrite Hraw in Hs; injection Hs as <-
    end.
    match goal with
    | Hs : on_str (Some raw) _ = Ok _ |- _ => cbn in Hs; injection Hs as <-
    end.
    rewrite replace_br_no_lt by assumption; reflexivity.
Qed.

(** *** An empty synonyms element, through the parsers *)

(** C10: let a document hold an item whose [synonyms] element is there
    and has no text.  The loop bodies raise [AttributeError] on the item,
    the loops on any list that holds it, [parse_anime_data] and
    [parse_manga_data] on the document, and [_search] on a 200 answer
    with that document: none of them gives a record.  And the fallback of
    [split(';') or []] is never taken, a split being never empty. *)
Theorem empty_synonyms_raises (xml : string) (root item e : ET.Element) :
  xml_parse xml = Some root ->
  ET.find "synonyms" item = Some e ->
  ET.text e = None ->
  anime_item item = Raise AttributeError /\
  manga_item item = Raise AttributeError /\
  (forall items, In item items ->
     anime_items items = Raise AttributeError /\
     manga_items items = Raise AttributeError) /\
  (In item (ET.findall "anime" root) ->
     parse_anime_data xml = Raise AttributeError) /\
  (In item (ET.findall "manga" root) ->
     parse_manga_data xml = Raise AttributeError) /\
  (In item (ET.findall "entry" root) ->
     forall which term w,
       status_code (server (sent w) (search_request (self w) which term)) = 200 ->
       text (server (sent w) (search_request (self w) which term)) = xml ->
       fst (_search which term w) = Raise AttributeError) /\
  (forall s, split ";" s <> [] /\ list_or (split ";" s) [] = split ";" s).
Proof.
  intros Hxml Hfind Htext.
  assert (Ha : anime_item item = Raise AttributeError).
  { unfold anime_item, find_text; rewrite Hfind, Htext; reflexivity. }
  assert (Hm : manga_item item = Raise AttributeError).
  { unfold manga_item, find_text; rewrite Hfind, Htext; reflexivity. }
  assert (Hg : getroot_failure xml = AttributeError).
  { unfold getroot_failure; rewrite Hxml; reflexivity. }
  split; [exact Ha|]. split; [exact Hm|].
  split; [intros items Hin; split;
          eauto using anime_items_raise, manga_items_raise|].
  split; [intros _; unfold parse_anime_data;
          rewrite getroot_fromstring, Hg; reflexivity|].
  split; [intros _; unfold parse_manga_data;
          rewrite getroot_fromstring, Hg; reflexivity|].
  split.
  - intros _ which term w H200 Htxt.
    rewrite search_cases, H200, Htxt, Hg; reflexivity.
  - intros s; split; [apply split_not_nil|apply list_or_split].
Qed.

End Client.

(** ** The properties on the sample data *)

(** The search with an answer 200 that holds one entry. *)
Lemma search_status_200_raises_witness :
  status_code
    (constant_server 200 sample_search_xml (sent sample_world)
       (search_request sample_self 1 "bebop")) = 200
  /\ _search (constant_server 200 sample_search_xml) sample_parse
       sample_unescape 1 "bebop" sample_world
     = (Raise AttributeError,
        after sample_world [search_request sample_self 1 "bebop"]).
Proof.
  split; [reflexivity|].
  apply (search_status_200_raises (constant_server 200 sample_search_xml)
           sample_parse sample_unescape 1 "bebop" sample_world).
  reflexivity.
Defined.

(** The search with an answer 404. *)
Lemma search_non_200_empty_witness :
  status_code
    (constant_server 404 "" (sent sample_world)
       (search_request sample_self 2 "berserk")) <> 200
  /\ _search (constant_server 404 "") sample_parse sample_unescape
       2 "berserk" sample_world
     = (Ok [], after sample_world [search_request sample_self 2 "berserk"]).
Proof.
  split; [discriminate|].
  apply (search_non_200_empty (constant_server 404 "") sample_parse
           sample_unescape 2 "berserk" sample_world).
  discriminate.
Defined.

(** A search answered 200 with an entry whose [synonyms] is empty. *)
Lemma empty_synonyms_raises_witness :
  anime_item sample_unescape empty_synonyms_entry = Raise AttributeError
  /\ anime_items sample_unescape [sample_entry; empty_synonyms_entry]
     = Raise AttributeError
  /\ fst (_search (constant_server 200 empty_synonyms_xml)
            empty_synonyms_parse sample_unescape 1 "t" sample_world)
     = Raise AttributeError.
Proof.
  pose proof (empty_synonyms_raises (constant_server 200 empty_synonyms_xml)
                empty_synonyms_parse sample_unescape
                empty_synonyms_xml empty_synonyms_doc empty_synonyms_entry
                (ET.Elem "synonyms" None [])
                eq_refl eq_refl eq_refl) as H.
  split; [exact (proj1 H)|].
  split.
  - apply (proj1 (proj2 (proj2 H)) [sample_entry; empty_synonyms_entry]).
    right; left; reflexivity.
  - apply (proj1 (proj2 (proj2 (proj2 (proj2 (proj2 H)))))).
    + left; reflexivity.
    + reflexivity.
    + reflexivity.
Defined.

(** C6, as the claim has it, fails: for the name [€] the construction
    sends no GET and raises an error that is not [UserLoginFailed],
    though the server would answer 200. *)
Lemma construction_with_euro_sign :
  MAL_new (constant_server 200 "") [8364%N] [120%N] []
  = (Raise UnicodeEncodeError, []).
Proof. reflexivity. Qed.

(** The name [bob] and the password [secret], code point by code point. *)
Lemma construction_verifies_credentials_witness :
  latin1 [98; 111; 98]%N = Some "bob"
  /\ latin1 [115; 101; 99; 114; 101; 116]%N = Some "secret"
  /\ MAL_new (constant_server 200 "") [98; 111; 98]%N
       [115; 101; 99; 114; 101; 116]%N []
     = (Ok sample_self, [verify_request sample_self]).
Proof.
  split; [reflexivity|]. split; [reflexivity|].
  apply (construction_verifies_credentials (constant_server 200 "")
           [98; 111; 98]%N [115; 101; 99; 114; 101; 116]%N
           "bob" "secret" [] eq_refl eq_refl).
Defined.

(** C3, as the claim has it, fails: a [Manga] handed to [_anime_add] does
    not raise [TypeError]. *)
Lemma wrong_type_is_not_type_error :
  fst (_anime_add (constant_server 201 "") sample_anime_to_xml
         (PyManga sample_manga) sample_world)
  <> Raise TypeError.
Proof. discriminate. Qed.

(** A [Manga] handed to the anime methods, an [Anime] to the manga ones. *)
Lemma wrong_type_raises_syntax_error_witness :
  _anime_add (constant_server 201 "") sample_anime_to_xml
    (PyManga sample_manga) sample_world
  = (Raise (SyntaxError
       ("Invalid type: data should be a Pymoe.Mal.Objects.Anime object. "
        ++ "Got a <class 'Pymoe.Mal.Objects.Manga'>")),
     sample_world).
Proof.
  apply (wrong_type_raises_syntax_error (constant_server 201 "")
           sample_anime_to_xml sample_manga_to_xml
           (PyManga sample_manga) (PyAnime sample_anime) sample_world
           eq_refl eq_refl).
Defined.

(** An update that the server would accept. *)
Example update_sample_anime :
  _anime_update (constant_server 200 "Updated") sample_anime_to_xml
    (PyAnime sample_anime) sample_world
  = (Raise TypeError, sample_world).
Proof. reflexivity. Qed.

(** The same record is added without trouble. *)
Example add_sample_anime :
  fst (_anime_add (constant_server 201 "Created") sample_anime_to_xml
         (PyAnime sample_anime) sample_world)
  = Ok true.
Proof. reflexivity. Qed.

(** A well-formed user list with its [myinfo] block. *)
Example user_sample :
  fst (user (constant_server 200 sample_user_xml) sample_parse
         sample_unescape "bob" sample_world)
  = Raise AttributeError.
Proof. reflexivity. Qed.

(** Wrong credentials. *)
Example init_sample_rejected :
  fst (__init__ (constant_server 401 "Invalid credentials") "bob" "wrong" [])
  = Raise (UserLoginFailed "Username or Password incorrect.").
Proof. reflexivity. Qed.

(** ** The further properties on the sample data *)

(** A [which] of 3. *)
Lemma search_other_which_is_manga_witness :
  3 <> 1
  /\ _search (constant_server 404 "") sample_parse sample_unescape
       3 "berserk" sample_world
     = _search_manga (constant_server 404 "") sample_parse sample_unescape
         "berserk" sample_world.
Proof.
  split; [discriminate|].
  apply (search_other_which_is_manga (constant_server 404 "") sample_parse
           sample_unescape 3 "berserk" sample_world).
  discriminate.
Defined.

(** The one search that returns: the server said 404. *)
Lemma search_never_returns_records_witness :
  fst (_search (constant_server 404 "") sample_parse sample_unescape
         1 "bebop" sample_world) = Ok []
  /\ status_code
       (constant_server 404 "" (sent sample_world)
          (search_request (self sample_world) 1 "bebop")) <> 200.
Proof.
  split; [reflexivity|].
  apply (search_never_returns_records (constant_server 404 "") sample_parse
           sample_unescape 1 "bebop" sample_world [] eq_refl).
Defined.

(** Built with [bob] and [secret], then searched with. *)
Lemma constructed_client_searches_with_its_credentials_witness :
  __init__ (constant_server 200 "") "bob" "secret" []
  = (Ok sample_self, [verify_request sample_self])
  /\ map auth
       (sent (snd (_search (constant_server 200 "") sample_parse
                     sample_unescape 1 "bebop"
                     {| self := sample_self;
                        sent := [verify_request sample_self] |})))
     = [Some ("bob", "secret"); Some ("bob", "secret")].
Proof.
  split; [reflexivity|].
  rewrite (constructed_client_searches_with_its_credentials
             (constant_server 200 "") sample_parse sample_unescape
             "bob" "secret" [] [verify_request sample_self] sample_self
             1 "bebop" eq_refl).
  reflexivity.
Defined.

(** The record of the sample entry. *)
Lemma anime_item_fields_witness :
  exists a, anime_item sample_unescape sample_entry = Ok a
            /\ find_text "score" sample_entry = Ok (a_average a)
            /\ find_text "title" sample_entry = Ok (a_title a).
Proof.
  eexists; split; [reflexivity|].
  pose proof (anime_item_fields sample_unescape sample_entry _ eq_refl) as H.
  split; [exact (proj1 (proj2 (proj2 (proj2 H)))) | exact (proj1 (proj2 H))].
Defined.

Lemma manga_item_fields_witness :
  exists m, manga_item sample_unescape sample_entry = Ok m
            /\ find_text "volumes" sample_entry = Ok (m_volumes m)
            /\ find_text "title" sample_entry = Ok (m_title m).
Proof.
  eexists; split; [reflexivity|].
  pose proof (manga_item_fields sample_unescape sample_entry _ eq_refl) as H.
  split; [exact (proj1 (proj2 (proj2 (proj2 H)))) | exact (proj1 (proj2 H))].
Defined.

(** Two entries, two records. *)
Lemma loop_one_record_per_item_witness :
  exists l, anime_items sample_unescape [sample_entry; plain_entry] = Ok l
            /\ length l = 2%nat.
Proof.
  eexists; split; [reflexivity|].
  apply (proj1 (loop_one_record_per_item sample_unescape
                  [sample_entry; plain_entry] _) eq_refl).
Defined.

(** The synopsis [plain]. *)
Lemma plain_synopsis_is_only_unescaped_witness :
  exists a, anime_item sample_unescape plain_entry = Ok a
            /\ a_synopsis a = sample_unescape "plain".
Proof.
  eexists; split; [reflexivity|].
  apply (proj1 (plain_synopsis_is_only_unescaped sample_unescape plain_entry
                  "plain" eq_refl eq_refl)).
  reflexivity.
Defined.

(** An entry without [image] after a complete one: nothing comes out. *)
Example loop_with_incomplete_item :
  anime_ready no_image_entry = false
  /\ anime_items sample_unescape [sample_entry; no_image_entry]
     = Raise AttributeError.
Proof. split; reflexivity. Qed.

(** A title without text is no obstacle. *)
Example item_with_empty_title :
  option_map a_title
    (match anime_item sample_unescape plain_entry with
     | Ok a => Some a
     | Raise _ => None
     end)
  = Some None.
Proof. reflexivity. Qed.
